(** * The S4 acquisition endpoints of bdi_api, embedded in Rocq

    Source: [src/bdi_api/s4/exercise.py], the two handlers [download_data]
    and [prepare_data].

    Python [int] is [Z], [str] is [string], a list is [list]; the bytes of a
    response body are [list byte].  The handlers talk to three external
    services: the remote HTTP source ([requests.get]), the HTML parser
    ([BeautifulSoup]) and the object store (boto3).  The first two are an
    environment the handlers are run in; the store is part of the state of
    the world, a finite map from (bucket, key) to contents that accepts every
    upload.  Exceptions are results of the monad, so that the place where the
    source has (or lacks) a handler is visible. *)

From Stdlib Require Import ZArith Ascii String Strings.Byte List Lia.
From stdpp Require Import base tactics option list gmap strings pretty.

Local Open Scope string_scope.
Local Open Scope list_scope.
Local Open Scope Z_scope.

(** ** Python built-ins used by the handlers *)

Module Py.

(** [bool(s)] for a [str]: the empty string is falsy. *)
Definition truthy (s : string) : bool :=
  match s with "" => false | String _ _ => true end.

(** [c in chars], for one character. *)
Fixpoint char_in (c : ascii) (chars : string) : bool :=
  match chars with
  | "" => false
  | String a chars' => Ascii.eqb c a || char_in c chars'
  end.

(** [s.rstrip(chars)]: drop the longest suffix made of characters of
    [chars]. *)
Fixpoint rstrip (chars s : string) : string :=
  match s with
  | "" => ""
  | String a s' =>
      match rstrip chars s' with
      | "" => if char_in a chars then "" else String a ""
      | r => String a r
      end
  end.

(** [s.startswith(p)]. *)
Definition startswith (p s : string) : bool := String.prefix p s.

(** [s.endswith(p)]. *)
Definition endswith (p s : string) : bool :=
  String.prefix (String.rev p) (String.rev s).

(** [sub in s]: [sub] occurs in [s] at some position. *)
Fixpoint contains (sub s : string) : bool :=
  String.prefix sub s
  || match s with
     | "" => false
     | String _ s' => contains sub s'
     end.

(** [s.split(sep)] for a separator of one character: every occurrence
    cuts, empty pieces are kept, the result is never empty. *)
Fixpoint split (sep : ascii) (s : string) : list string :=
  match s with
  | "" => [""]
  | String a s' =>
      if Ascii.eqb a sep then "" :: split sep s'
      else match split sep s' with
           | [] => [String a ""]
           | w :: ws => String a w :: ws
           end
  end.

(** [l[i]]: a negative index counts from the end; [None] stands for
    [IndexError]. *)
Definition getitem {A} (l : list A) (i : Z) : option A :=
  let n := Z.of_nat (length l) in
  if i <? 0
  then (if i + n <? 0 then None else l !! Z.to_nat (i + n))
  else l !! Z.to_nat i.

(** [l[:stop]]: a negative [stop] counts from the end and is clamped at
    the front; a [stop] past the end is clamped at the end. *)
Definition slice_to {A} (l : list A) (stop : Z) : list A :=
  let n := Z.of_nat (length l) in
  if stop <? 0
  then take (Z.to_nat (Z.max 0 (stop + n))) l
  else take (Z.to_nat stop) l.

(** [s[i:]] for [0 <= i]. *)
Fixpoint drop_str (i : nat) (s : string) : string :=
  match i, s with
  | O, _ => s
  | S _, "" => ""
  | S i', String _ s' => drop_str i' s'
  end.

(** [s.rfind(c)] for one character: the highest index of [c], or -1. *)
Fixpoint rfind (c : ascii) (s : string) : Z :=
  match s with
  | "" => -1
  | String a s' =>
      let r := rfind c s' in
      if 0 <=? r then r + 1
      else if Ascii.eqb a c then 0 else -1
  end.

(** [range(start, stop, step)] for a positive [step] (the only kind the
    handlers use): [start, start+step, ...] below [stop]. *)
Definition range3 (start stop step : Z) : list Z :=
  (λ i : nat, start + step * Z.of_nat i) <$>
    seq 0 (Z.to_nat ((stop - start + step - 1) / step)).

(** [range(stop)]. *)
Definition range (stop : Z) : list Z := range3 0 stop 1.

(** [str(n)] for an [int]. *)
Definition str (n : Z) : string := pretty n.

(** [len(l)]. *)
Definition len {A} (l : list A) : Z := Z.of_nat (length l).

(** ["0" * k]. *)
Fixpoint zeros (k : nat) : string :=
  match k with O => "" | S k' => String "0" (zeros k') end.

(** [f"{n:0wd}"]: sign first, then zeros up to the width [w], then the
    decimal digits; nothing is cut when the number is wider than [w]. *)
Definition format_0d (w : nat) (n : Z) : string :=
  let sign := if n <? 0 then "-" else "" in
  let digits := pretty (Z.abs n) in
  sign +:+ zeros (w - String.length sign - String.length digits) +:+ digits.

(** [a % b] is the floored remainder, which is [Z.modulo]. *)
Definition mod_ (a b : Z) : Z := a `mod` b.

End Py.

(** ** [os.path] on POSIX *)

Module PosixPath.

(** [posixpath.basename(p)]: [i = p.rfind('/') + 1; return p[i:]]. *)
Definition basename (p : string) : string :=
  let i := Py.rfind "/" p + 1 in
  Py.drop_str (Z.to_nat i) p.

(** One round of the loop of [posixpath.join]. *)
Definition join_step (path b : string) : string :=
  if Py.startswith "/" b then b
  else if negb (Py.truthy path) || Py.endswith "/" path then path +:+ b
  else path +:+ "/" +:+ b.

(** [posixpath.join(a, *p)]. *)
Definition join (a : string) (p : list string) : string :=
  foldl join_step a p.

End PosixPath.

(** ** Data model *)

(** What [requests.get] hands back: [status_code], [text] and the [raw]
    body stream. *)
Record Response := mkResponse {
  status_code : Z;
  text : string;
  raw : list byte;
}.

(** Exceptions that leave a handler. *)
Inductive exn :=
  | ConnectionError   (* requests: a network-level failure *)
  | IndexError        (* list index out of range *)
  | ClientError.      (* boto3: the object does not exist *)

(** One call of [requests.get]: a response of any status, or an exception. *)
Inductive http_reply :=
  | Reply (r : Response)
  | Fails (e : exn).

(** An element of the parsed page: its name and its attributes. *)
Record Tag := mkTag {
  tag_name : string;
  attrs : gmap string string;
}.

(** [tag.get(key)]. *)
Definition tag_get (key : string) (t : Tag) : option string := attrs t !! key.

(** [soup.find_all(name)]: the elements of that name, in document order. *)
Definition find_all (name : string) (soup : list Tag) : list Tag :=
  filter (λ t, tag_name t = name) soup.

(** [bdi_api.settings.Settings], the two fields the handlers read. *)
Record Settings := mkSettings {
  source_url : string;
  s3_bucket : string;
}.

(** One page of [list_objects_v2]: the keys under ["Contents"], when the
    page has that entry. *)
Record Page := mkPage {
  Contents : option (list string);
}.

(** What the handlers run against.  The remote may answer the same URL
    differently over time: [remote n url] is the reply to the request number
    [n] of the run of the world. *)
Record Env := mkEnv {
  settings : Settings;
  remote : nat → string → http_reply;
  BeautifulSoup : string → list Tag;
}.

(** The state the handlers read and change: the object store, the local
    files, what was printed, and the URLs requested so far. *)
Record World := mkWorld {
  s3_objects : gmap (string * string) (list byte);
  local_files : gmap string (list byte);
  stdout : list string;
  http_log : list string;
}.

Definition empty_world : World :=
  {| s3_objects := ∅; local_files := ∅; stdout := []; http_log := [] |}.

(** ** The monad of handlers: state and exceptions *)

Inductive result (A : Type) :=
  | Ret (a : A)
  | Raise (e : exn).
Arguments Ret {A} a.
Arguments Raise {A} e.

Definition M (A : Type) : Type := World → result A * World.

Global Instance M_ret : MRet M := λ A a w, (Ret a, w).
Global Instance M_bind : MBind M := λ A B f m w,
  match m w with
  | (Ret a, w') => f a w'
  | (Raise e, w') => (Raise e, w')
  end.

Definition raise {A} (e : exn) : M A := λ w, (Raise e, w).

(** [for x in l: acc = body(acc, x)], the loop variables threaded through. *)
Fixpoint for_each {A S} (body : S → A → M S) (acc : S) (l : list A) : M S :=
  match l with
  | [] => mret acc
  | x :: l' => acc' ← body acc x; for_each body acc' l'
  end.

(** The four ways a handler changes the world. *)
Definition write_line (line : string) (w : World) : World :=
  {| s3_objects := s3_objects w; local_files := local_files w;
     stdout := stdout w ++ [line]; http_log := http_log w |}.
Definition log_request (url : string) (w : World) : World :=
  {| s3_objects := s3_objects w; local_files := local_files w;
     stdout := stdout w; http_log := http_log w ++ [url] |}.
Definition put_object (bucket key : string) (body : list byte) (w : World) : World :=
  {| s3_objects := <[(bucket, key) := body]> (s3_objects w);
     local_files := local_files w;
     stdout := stdout w; http_log := http_log w |}.
Definition write_file (path : string) (body : list byte) (w : World) : World :=
  {| s3_objects := s3_objects w;
     local_files := <[path := body]> (local_files w);
     stdout := stdout w; http_log := http_log w |}.

(** [print(line)]. *)
Definition print (line : string) : M unit := λ w, (Ret tt, write_line line w).

(** [s3_client.upload_fileobj(body, bucket, key)]: the object is written,
    replacing what was under the key. *)
Definition upload_fileobj (body : list byte) (bucket key : string) : M unit :=
  λ w, (Ret tt, put_object bucket key body w).

(** [s3_client.download_file(bucket, key, path)]: the object is copied to
    the local path; a key that does not exist raises. *)
Definition download_file (bucket key path : string) : M unit := λ w,
  match s3_objects w !! (bucket, key) with
  | Some body => (Ret tt, write_file path body w)
  | None => (Raise ClientError, w)
  end.

Definition newline : string := String (ascii_of_nat 10) "".

(** ** The handlers *)

Section Handlers.
Variable env : Env.

(** [requests.get(url, ...)]: the request goes out, and the remote replies
    or the call raises. *)
Definition requests_get (url : string) : M Response := λ w,
  match remote env (length (http_log w)) url with
  | Reply r => (Ret r, log_request url w)
  | Fails e => (Raise e, log_request url w)
  end.

(** [base_url], [s3_bucket] and [s3_prefix_path] of [download_data]. *)
Definition base_url : string :=
  Py.rstrip "/" (source_url (settings env)) +:+ "/2023/11/01/".
Definition bucket : string := s3_bucket (settings env).
Definition s3_prefix_path : string := "raw/day=20231101/".

(** The condition of the list comprehension of line 55:
    [a.get("href") and ".json" in a.get("href")]. *)
Definition qualifies (a : Tag) : bool :=
  match tag_get "href" a with
  | Some href => Py.truthy href && Py.contains ".json" href
  | None => false
  end.

(** Line 55: [[a.get("href") for a in soup.find_all("a") if ...]]. *)
Definition extract_links (soup : list Tag) : list string :=
  omap (tag_get "href") (filter (λ a, qualifies a = true) (find_all "a" soup)).

(** Line 64: [f"{h:02d}{m:02d}{s:02d}Z.json.gz"]. *)
Definition candidate_name (h m s : Z) : string :=
  Py.format_0d 2 h +:+ Py.format_0d 2 m +:+ Py.format_0d 2 s +:+ "Z.json.gz".

(** Lines 61-64: the three nested loops, appending to [all_links]. *)
Definition generate_fallback (all_links : list string) : list string :=
  foldl (λ (acc : list string) h,
    foldl (λ (acc : list string) m,
      foldl (λ (acc : list string) s, acc ++ [candidate_name h m s])
        acc (Py.range3 0 60 5))
      acc (Py.range 60))
    all_links (Py.range 24).

(** Lines 51-66: fetch the listing page, extract, fall back when nothing
    was extracted.  Returns [all_links]. *)
Definition collect_links : M (list string) :=
  response ← requests_get base_url;
  let soup := BeautifulSoup env (text response) in
  let all_links := extract_links soup in
  all_links ← (match all_links with
               | [] =>
                   print "HTML parser found 0 links (Likely Cloudflare protection).";;
                   print "Engaging fallback: generating exact filenames mathematically...";;
                   mret (generate_fallback all_links)
               | _ :: _ => mret all_links
               end);
  print ("Total files available/generated: " +:+ Py.str (Py.len all_links));;
  mret all_links.

(** Line 68: [all_links[:file_limit]]. *)
Definition links_to_download (all_links : list string) (file_limit : Z) : list string :=
  Py.slice_to all_links file_limit.

(** Line 73. *)
Definition file_url (filename : string) : string :=
  if Py.startswith "http" filename then filename else base_url +:+ filename.

(** Line 74: [filename.split("/")[-1]]. *)
Definition s3_filename_of (filename : string) : M string :=
  match Py.getitem (Py.split "/" filename) (-1) with
  | Some f => mret f
  | None => raise IndexError
  end.

(** Lines 73-85: the body of the loop; [n_links] is
    [len(links_to_download)], the loop variable is [downloaded_count]. *)
Definition fetch_item (n_links : Z) (downloaded_count : Z) (filename : string) : M Z :=
  let file_url := file_url filename in
  s3_filename ← s3_filename_of filename;
  file_response ← requests_get file_url;
  if status_code file_response =? 200 then
    let s3_key := s3_prefix_path +:+ s3_filename in
    upload_fileobj (raw file_response) bucket s3_key;;
    let downloaded_count := downloaded_count + 1 in
    (if Py.mod_ downloaded_count 50 =? 0
     then print ("Successfully uploaded " +:+ Py.str downloaded_count +:+ " out of "
                 +:+ Py.str n_links +:+ "...")
     else mret tt);;
    mret downloaded_count
  else
    print ("Failed to download " +:+ s3_filename +:+ " (HTTP "
           +:+ Py.str (status_code file_response) +:+ ")");;
    mret downloaded_count.

(** Lines 71-85: the Batch Fetcher, returning [downloaded_count]. *)
Definition fetch_batch (links : list string) : M Z :=
  for_each (fetch_item (Py.len links)) 0 links.

(** [POST /api/s4/aircraft/download]. *)
Definition download_data (file_limit : Z) : M string :=
  print (newline +:+ "--- STARTING DOWNLOAD ---");;
  print ("Bucket: " +:+ bucket);;
  print ("URL: " +:+ base_url);;
  all_links ← collect_links;
  let links := links_to_download all_links file_limit in
  print ("Attempting to download " +:+ Py.str (Py.len links) +:+ " files to S3..." +:+ newline);;
  downloaded_count ← fetch_batch links;
  print (newline +:+ "--- DONE! Successfully uploaded " +:+ Py.str downloaded_count +:+ " files ---");;
  mret "OK".

(** Line 98. *)
Definition prepared_dir : string :=
  PosixPath.join "data" ["prepared"; "day=20231101"].

(** Lines 107-112: one listed object. *)
Definition prepare_object (s3_key : string) : M unit :=
  let filename := PosixPath.basename s3_key in
  if negb (Py.truthy filename) then mret tt
  else
    let local_file_path := PosixPath.join prepared_dir [filename] in
    download_file bucket s3_key local_file_path.

(** Lines 104-112: the pages of the listing, each with or without
    ["Contents"]. *)
Definition prepare_pages (pages : list Page) : M unit :=
  for_each (λ _ page,
    match Contents page with
    | Some objs => for_each (λ _ s3_key, prepare_object s3_key) tt objs
    | None => mret tt
    end) tt pages.

(** [POST /api/s4/aircraft/prepare]; [pages] is what
    [paginator.paginate(Bucket=s3_bucket, Prefix=s3_prefix_path)] yields.
    [os.makedirs] has no counterpart: local files are a map from paths. *)
Definition prepare_data (pages : list Page) : M string :=
  prepare_pages pages;;
  mret "OK".

End Handlers.

Global Arguments generate_fallback : simpl never.
Global Arguments candidate_name : simpl never.
Global Arguments Py.str : simpl never.
Global Arguments Py.len : simpl never.
Global Arguments Py.getitem : simpl never.
Global Arguments base_url : simpl never.
Global Arguments file_url : simpl never.

(** ** Observers used to state the properties *)

(** The value of a decimal digit. *)
Definition digit_value (c : ascii) : option Z := Z.of_nat <$> Ascii.is_nat c.

(** Reads a name of the shape [\d{2}\d{2}\d{2}Z\.json\.gz] back into its
    hour, minute and second fields; [None] for any other string. *)
Definition parse_name (f : string) : option (Z * Z * Z) :=
  match f with
  | String h1 (String h2 (String m1 (String m2 (String s1 (String s2 rest))))) =>
      if String.eqb rest "Z.json.gz" then
        a ← digit_value h1; b ← digit_value h2;
        c ← digit_value m1; d ← digit_value m2;
        e ← digit_value s1; g ← digit_value s2;
        Some (10 * a + b, 10 * c + d, 10 * e + g)
      else None
  | _ => None
  end.

(** The time of day a well-formed name stands for, in seconds after
    midnight; [None] when the name is not well formed or a field is out of
    range. *)
Definition time_of_day (f : string) : option Z :=
  '(h, m, s) ← parse_name f;
  if (h <=? 23) && (m <=? 59) && (s <=? 59) then Some (3600 * h + 60 * m + s)
  else None.

(** The same enumeration as [generate_fallback], as one expression. *)
Definition fallback_names : list string :=
  h ← Py.range 24; m ← Py.range 60; s ← Py.range3 0 60 5; [candidate_name h m s].

(** The names of one minute, and of one hour, of that enumeration. *)
Definition minute_names (h m : Z) : list string :=
  s ← Py.range3 0 60 5; [candidate_name h m s].
Definition hour_names (h : Z) : list string :=
  m ← Py.range 60; minute_names h m.

(** [a] is an anchor whose hyperlink attribute is [h], and [h] contains the
    file-type marker [.json]. *)
Definition qualifying_link (a : Tag) (h : string) : Prop :=
  tag_name a = "a" ∧ tag_get "href" a = Some h
  ∧ ∃ pre post, h = pre +:+ ".json" +:+ post.

(** [links] are the hyperlinks of the qualifying anchors of [soup], one per
    anchor, in the order of the document. *)
Inductive Extracted : list Tag → list string → Prop :=
  | Extracted_nil : Extracted [] []
  | Extracted_link a h soup links :
      qualifying_link a h → Extracted soup links →
      Extracted (a :: soup) (h :: links)
  | Extracted_skip a soup links :
      (∀ h, ¬ qualifying_link a h) → Extracted soup links →
      Extracted (a :: soup) links.

(** An absolute URL starts with a scheme and a colon (RFC 3986, sections
    3.1 and 4.3): a letter, then letters, digits, [+], [-] or [.], then
    [:]. *)
Definition is_alpha (c : ascii) : bool :=
  let n := nat_of_ascii c in
  ((65 <=? n) && (n <=? 90) || (97 <=? n) && (n <=? 122))%nat.
Definition is_scheme_char (c : ascii) : bool :=
  is_alpha c || bool_decide (is_Some (Ascii.is_nat c)) || Py.char_in c "+-.".
Fixpoint scheme_then_colon (s : string) : bool :=
  match s with
  | "" => false
  | String c s' =>
      if Ascii.eqb c ":" then true else is_scheme_char c && scheme_then_colon s'
  end.
Definition is_absolute_url (s : string) : bool :=
  match s with
  | "" => false
  | String c s' => is_alpha c && scheme_then_colon s'
  end.

(** The uploads of a batch against a remote that answers a URL the same way
    at any time: key and body of each candidate answered with 200, in order,
    up to the first candidate whose fetch raises. *)
Fixpoint uploads (env : Env) (links : list string)
    : list ((string * string) * list byte) :=
  match links with
  | [] => []
  | f :: rest =>
      match remote env 0 (file_url env f) with
      | Fails _ => []
      | Reply r =>
          if status_code r =? 200 then
            ((bucket env,
              s3_prefix_path +:+ default "" (Py.getitem (Py.split "/" f) (-1))),
             raw r) :: uploads env rest
          else uploads env rest
      end
  end.

(** Writing a list of objects into a store, one after the other. *)
Definition put_all (m : gmap (string * string) (list byte))
    (objs : list ((string * string) * list byte))
    : gmap (string * string) (list byte) :=
  foldl (λ m kv, <[kv.1 := kv.2]> m) m objs.

(** The keys of a listing, page after page. *)
Definition listed_keys (pages : list Page) : list string :=
  page ← pages; default [] (Contents page).

(** [f] is the final path segment of [s]: it has no slash, and [s] is [f]
    itself or ends in a slash followed by [f]. *)
Definition final_segment (s f : string) : Prop :=
  Py.contains "/" f = false ∧ (s = f ∨ ∃ p, s = p +:+ "/" +:+ f).




(** ** Sample environments *)

Definition anchor (href : string) : Tag := mkTag "a" {[ "href" := href ]}.

Definition sample_settings : Settings :=
  mkSettings "https://samples.example.org/readsb-hist/" "bdi-aircraft".

(** A listing with three links; every file is served, the second one as
    404. *)
Definition env_listing : Env := {|
  settings := sample_settings;
  remote := λ _ url,
    if Py.contains "000005Z" url then Reply (mkResponse 404 "" [])
    else Reply (mkResponse 200 "" [x7b; x7d]);
  BeautifulSoup := λ _,
    [anchor "../"; mkTag "p" ∅; anchor "000000Z.json.gz";
     anchor "000005Z.json.gz"; anchor "000010Z.json.gz"]
|}.


(** A store with two objects and the listing of its prefix on two pages,
    the first of which also lists the prefix itself. *)
Definition sample_store_world : World :=
  {| s3_objects :=
       {[ ("bdi-aircraft", "raw/day=20231101/000000Z.json.gz") := [x7b; x7d];
          ("bdi-aircraft", "raw/day=20231101/000005Z.json.gz") := [x5b; x5d] ]};
     local_files := ∅; stdout := []; http_log := [] |}.
Definition sample_pages : list Page :=
  [mkPage (Some ["raw/day=20231101/"; "raw/day=20231101/000000Z.json.gz"]);
   mkPage None;
   mkPage (Some ["raw/day=20231101/000005Z.json.gz"])].

(** A page without links; every file is served. *)
Definition env_fallback : Env := {|
  settings := sample_settings;
  remote := λ _ _, Reply (mkResponse 200 "" [x7b; x7d]);
  BeautifulSoup := λ _, []
|}.

(** The remote cannot be reached at all. *)
Definition env_down : Env := {|
  settings := sample_settings;
  remote := λ _ _, Fails ConnectionError;
  BeautifulSoup := λ _, []
|}.

(** A listing with three links; every request is answered with 404. *)
Definition env_not_found : Env := {|
  settings := sample_settings;
  remote := λ _ _, Reply (mkResponse 404 "" []);
  BeautifulSoup := λ _,
    [anchor "000000Z.json.gz"; anchor "000005Z.json.gz"; anchor "000010Z.json.gz"]
|}.


(** ** Further observers *)

(** [k] slashes. *)
Fixpoint slashes (k : nat) : string :=
  match k with O => "" | S k' => String "/" (slashes k') end.

(** The environment with another [source_url]. *)
Definition with_source_url (u : string) (env : Env) : Env :=
  {| settings := {| source_url := u; s3_bucket := s3_bucket (settings env) |};
     remote := remote env; BeautifulSoup := BeautifulSoup env |}.


(** The loop of [prepare_data] over the keys of all pages, as one loop. *)
Definition prepare_keys (env : Env) (keys : list string) : M unit :=
  for_each (λ _ s3_key, prepare_object env s3_key) tt keys.

(** ** Facts about the built-ins *)

(** Linear arithmetic with division and remainder by constants. *)
Ltac div_lia := Z.to_euclidean_division_equations; lia.

Example rstrip_ex : Py.rstrip "/" "https://host/readsb-hist//" = "https://host/readsb-hist".
Proof. reflexivity. Qed.
Example split_ex : Py.split "/" "a//b/" = ["a"; ""; "b"; ""].
Proof. reflexivity. Qed.
Example slice_neg_ex : Py.slice_to [1; 2; 3; 4] (-1) = [1; 2; 3].
Proof. reflexivity. Qed.
Example fmt_ex : Py.format_0d 2 7 = "07" ∧ Py.format_0d 2 55 = "55" ∧ Py.format_0d 2 123 = "123".
Proof. vm_compute. done. Qed.
Example range3_ex : Py.range3 0 60 5 = [0; 5; 10; 15; 20; 25; 30; 35; 40; 45; 50; 55].
Proof. reflexivity. Qed.
Example basename_ex : PosixPath.basename "raw/day=20231101/000000Z.json.gz" = "000000Z.json.gz"
  ∧ PosixPath.basename "raw/day=20231101/" = "".
Proof. vm_compute. done. Qed.
Example join_ex : PosixPath.join "data" ["prepared"; "day=20231101"] = "data/prepared/day=20231101".
Proof. reflexivity. Qed.

Section PyFacts.

Lemma append_nil_l (s : string) : "" +:+ s = s.
Proof. reflexivity. Qed.

Lemma append_cons (a : ascii) (s t : string) : String a s +:+ t = String a (s +:+ t).
Proof. reflexivity. Qed.

Lemma append_nil_r (s : string) : s +:+ "" = s.
Proof. induction s as [|a s IH]; [done|]. by rewrite append_cons, IH. Qed.

Lemma append_assoc (s t u : string) : (s +:+ t) +:+ u = s +:+ t +:+ u.
Proof. induction s as [|a s IH]; [done|]. by rewrite !append_cons, IH. Qed.

Lemma prefix_spec (p s : string) :
  String.prefix p s = true ↔ ∃ t, s = p +:+ t.
Proof.
  revert s. induction p as [|a p IH]; intros s.
  - split; [intros _; by exists s|intros _; by destruct s].
  - destruct s as [|b s]; simpl.
    + split; [done|intros [t Ht]; by rewrite append_cons in Ht].
    + destruct (ascii_dec a b) as [->|Hab].
      * rewrite IH. split; intros [t Ht]; exists t.
        -- by rewrite append_cons, Ht.
        -- rewrite append_cons in Ht. by simplify_eq.
      * split; [done|intros [t Ht]]. rewrite append_cons in Ht. by simplify_eq.
Qed.

Lemma contains_unfold (sub s : string) :
  Py.contains sub s =
    String.prefix sub s
    || match s with "" => false | String _ s' => Py.contains sub s' end.
Proof. by destruct s. Qed.

(** [sub in s] holds exactly when [s] is [pre + sub + post]. *)
Lemma contains_spec (sub s : string) :
  Py.contains sub s = true ↔ ∃ pre post, s = pre +:+ sub +:+ post.
Proof.
  split.
  - induction s as [|a s IH]; rewrite contains_unfold; intros H;
      apply orb_true_iff in H as [H|H]; try done.
    + apply prefix_spec in H as [t Ht]. by exists "", t.
    + apply prefix_spec in H as [t Ht]. by exists "", t.
    + destruct (IH H) as (pre & post & ->). by exists (String a pre), post.
  - intros (pre & post & ->). induction pre as [|a pre IH].
    + rewrite contains_unfold, append_nil_l.
      apply orb_true_iff. left. apply prefix_spec. by exists post.
    + rewrite append_cons, contains_unfold, IH. apply orb_true_r.
Qed.

Lemma truthy_spec (s : string) : Py.truthy s = true ↔ s ≠ "".
Proof. by destruct s. Qed.

Lemma contains_nonempty (sub s : string) :
  sub ≠ "" → Py.contains sub s = true → Py.truthy s = true.
Proof. intros Hsub. destruct s; [|done]. by destruct sub. Qed.

End PyFacts.

Section SplitFacts.

Lemma split_nonempty (sep : ascii) (s : string) : Py.split sep s ≠ [].
Proof.
  destruct s as [|a s]; simpl; [done|].
  destruct (Ascii.eqb a sep); [done|]. by destruct (Py.split sep s).
Qed.

(** Joining the pieces with the separator gives the string back. *)
Lemma concat_split (sep : ascii) (s : string) :
  String.concat (String sep "") (Py.split sep s) = s.
Proof.
  induction s as [|a s IH]; simpl; [done|].
  pose proof (split_nonempty sep s) as Hne.
  destruct (Ascii.eqb_spec a sep) as [->|Hne'].
  - destruct (Py.split sep s) as [|w ws] eqn:E; [done|].
    change (String.concat (String sep "") ("" :: w :: ws))
      with ("" +:+ String sep "" +:+ String.concat (String sep "") (w :: ws)).
    by rewrite IH.
  - destruct (Py.split sep s) as [|w ws] eqn:E; [done|].
    destruct ws as [|w' ws]; simpl in *; by rewrite <- IH.
Qed.

Lemma contains_char_cons (c a : ascii) (s : string) :
  Py.contains (String c "") (String a s)
  = Ascii.eqb a c || Py.contains (String c "") s.
Proof.
  rewrite contains_unfold. simpl.
  destruct (ascii_dec c a) as [->|Hne].
  - rewrite Ascii.eqb_refl. by destruct s.
  - destruct (Ascii.eqb_spec a c); [congruence|done].
Qed.

(** No piece contains the separator. *)
Lemma split_no_sep (sep : ascii) (s : string) :
  Forall (λ w, Py.contains (String sep "") w = false) (Py.split sep s).
Proof.
  induction s as [|a s IH]; simpl.
  - by repeat constructor.
  - destruct (Ascii.eqb_spec a sep) as [->|Hne].
    + by constructor.
    + pose proof (split_nonempty sep s) as Hnil.
      destruct (Py.split sep s) as [|w ws]; [done|].
      inversion IH as [|? ? Hw Hws]; subst. constructor; [|done].
      rewrite contains_char_cons, Hw.
      by destruct (Ascii.eqb_spec a sep).
Qed.

Lemma concat_last (sep : string) (l : list string) (f : string) :
  last l = Some f →
  String.concat sep l = f ∨ ∃ p, String.concat sep l = p +:+ sep +:+ f.
Proof.
  induction l as [|w l IH]; [done|].
  destruct l as [|w' l]; intros Hlast.
  - left. by simplify_eq/=.
  - right. change (last (w :: w' :: l)) with (last (w' :: l)) in Hlast.
    change (String.concat sep (w :: w' :: l))
      with (w +:+ sep +:+ String.concat sep (w' :: l)).
    destruct (IH Hlast) as [->|[p ->]].
    + by exists w.
    + exists (w +:+ sep +:+ p). by rewrite !append_assoc.
Qed.

Lemma getitem_minus_one {A} (l : list A) : Py.getitem l (-1) = last l.
Proof.
  unfold Py.getitem. rewrite last_lookup.
  destruct l as [|x l]; [done|].
  change (-1 <? 0) with true. cbv iota.
  destruct (-1 + Z.of_nat (length (x :: l)) <? 0) eqn:E.
  - apply Z.ltb_lt in E. simpl length in E. lia.
  - f_equal. simpl length. lia.
Qed.

(** [filename.split("/")[-1]] never raises and is the final path segment. *)
Lemma split_last_segment (s : string) :
  ∃ f, Py.getitem (Py.split "/" s) (-1) = Some f ∧ final_segment s f.
Proof.
  rewrite getitem_minus_one.
  destruct (last (Py.split "/" s)) as [f|] eqn:Hlast.
  - exists f. split; [done|]. split.
    + pose proof (split_no_sep "/" s) as Hall.
      rewrite Forall_forall in Hall. apply Hall.
      by apply last_Some_elem_of.
    + pose proof (concat_last "/" _ _ Hlast) as H.
      by rewrite concat_split in H.
  - apply last_None in Hlast. by destruct (split_nonempty "/" s).
Qed.

End SplitFacts.

Section BasenameFacts.







End BasenameFacts.

Section SliceFacts.
Context {A : Type}.
Implicit Types (l : list A) (n : Z).

Lemma slice_to_nonneg l n : 0 ≤ n → Py.slice_to l n = take (Z.to_nat n) l.
Proof.
  intros Hn. unfold Py.slice_to.
  destruct (n <? 0) eqn:E; [apply Z.ltb_lt in E; lia|done].
Qed.

Lemma slice_to_neg l n :
  n < 0 → Py.slice_to l n = take (length l - Z.to_nat (- n)) l.
Proof.
  intros Hn. unfold Py.slice_to.
  destruct (n <? 0) eqn:E; [|apply Z.ltb_ge in E; lia].
  f_equal. lia.
Qed.


Lemma len_slice_to_neg l n :
  n < 0 → Py.len (Py.slice_to l n) = Z.max 0 (Py.len l + n).
Proof.
  intros Hn. rewrite slice_to_neg by done.
  unfold Py.len. rewrite length_take. lia.
Qed.

Lemma slice_to_zero l : Py.slice_to l 0 = [].
Proof. by rewrite slice_to_nonneg. Qed.

End SliceFacts.

Section FinalSegmentFacts.








End FinalSegmentFacts.

(** ** The Deterministic Fallback Generator *)

Section FallbackFacts.

Lemma foldl_app_bind {A B} (f : list B → A → list B) (g : A → list B)
    (acc : list B) (l : list A) :
  (∀ acc x, f acc x = acc ++ g x) →
  foldl f acc l = acc ++ (l ≫= g).
Proof.
  intros Hf. revert acc. induction l as [|x l IH]; intros acc; simpl.
  - by rewrite app_nil_r.
  - by rewrite IH, Hf, <- app_assoc.
Qed.

(** The nested loops append the enumeration to [all_links]. *)
Lemma generate_fallback_app (all_links : list string) :
  generate_fallback all_links = all_links ++ fallback_names.
Proof.
  unfold generate_fallback, fallback_names.
  apply foldl_app_bind. intros acc h.
  apply foldl_app_bind. intros acc' m.
  apply foldl_app_bind. done.
Qed.

Lemma generate_fallback_nil : generate_fallback [] = fallback_names.
Proof. by rewrite generate_fallback_app. Qed.

Lemma digit_value_char (d : Z) :
  0 ≤ d < 10 → digit_value (pretty_N_char (Z.to_N d)) = Some d.
Proof.
  intros Hd.
  assert (d = 0 ∨ d = 1 ∨ d = 2 ∨ d = 3 ∨ d = 4 ∨ d = 5 ∨ d = 6 ∨ d = 7
          ∨ d = 8 ∨ d = 9) as Hcases by lia.
  by destruct_or!; subst.
Qed.

(** [f"{n:02d}"] is two digits for [0 <= n < 100]. *)
Lemma format_0d_two_digits (n : Z) :
  0 ≤ n < 100 →
  Py.format_0d 2 n
  = String (pretty_N_char (Z.to_N (n / 10)))
      (String (pretty_N_char (Z.to_N (n `mod` 10))) "").
Proof.
  intros Hn.
  assert (Forall (λ k : nat,
            Py.format_0d 2 (Z.of_nat k)
            = String (pretty_N_char (Z.to_N (Z.of_nat k / 10)))
                (String (pretty_N_char (Z.to_N (Z.of_nat k `mod` 10))) ""))
            (seq 0 100)) as Hall.
  { apply (bool_decide_unpack _). vm_compute. exact I. }
  rewrite Forall_forall in Hall.
  specialize (Hall (Z.to_nat n)). rewrite Z2Nat.id in Hall by lia.
  apply Hall, elem_of_seq. lia.
Qed.

(** A generated name reads back as its three fields. *)
Lemma parse_candidate_name (h m s : Z) :
  0 ≤ h < 100 → 0 ≤ m < 100 → 0 ≤ s < 100 →
  parse_name (candidate_name h m s) = Some (h, m, s).
Proof.
  intros Hh Hm Hs. unfold candidate_name.
  rewrite !format_0d_two_digits by done.
  rewrite !append_cons, !append_nil_l. unfold parse_name.
  rewrite String.eqb_refl.
  rewrite !digit_value_char by div_lia.
  simpl. do 2 f_equal; [f_equal|]; div_lia.
Qed.

Lemma time_of_candidate_name (h m s : Z) :
  0 ≤ h ≤ 23 → 0 ≤ m ≤ 59 → 0 ≤ s ≤ 59 →
  time_of_day (candidate_name h m s) = Some (3600 * h + 60 * m + s).
Proof.
  intros Hh Hm Hs. unfold time_of_day.
  rewrite parse_candidate_name by lia. simpl.
  by repeat (case_match; try lia).
Qed.

Lemma length_bind_const {A B} (g : A → list B) (c : nat) (l : list A) :
  (∀ y, length (g y) = c) → length (l ≫= g) = (length l * c)%nat.
Proof.
  intros Hg. induction l as [|x l IH]; [done|].
  change ((x :: l) ≫= g) with (g x ++ (l ≫= g)).
  rewrite length_app, IH, Hg. simpl. lia.
Qed.

(** With pieces of one length [c], piece [k] starts at position [k * c]. *)
Lemma lookup_bind_const {A B} (g : A → list B) (c : nat) (l : list A)
    (k j : nat) (x : A) :
  (∀ y, length (g y) = c) → l !! k = Some x → (j < c)%nat →
  (l ≫= g) !! (k * c + j)%nat = g x !! j.
Proof.
  intros Hg. revert k. induction l as [|y l IH]; intros k Hk Hj; [done|].
  change ((y :: l) ≫= g) with (g y ++ (l ≫= g)).
  destruct k as [|k]; simpl in Hk.
  - simplify_eq. apply lookup_app_l. rewrite Hg. lia.
  - rewrite lookup_app_r by (rewrite Hg; simpl; lia).
    rewrite Hg. rewrite <- (IH k) by done. f_equal. simpl. lia.
Qed.

Lemma range_24 : Py.range 24 = Z.of_nat <$> seq 0 24.
Proof. reflexivity. Qed.
Lemma range_60 : Py.range 60 = Z.of_nat <$> seq 0 60.
Proof. reflexivity. Qed.
Lemma range3_60_5 : Py.range3 0 60 5 = (λ j : nat, 5 * Z.of_nat j) <$> seq 0 12.
Proof. reflexivity. Qed.

Lemma lookup_fmap_seq {B} (f : nat → B) (n k : nat) :
  (k < n)%nat → (f <$> seq 0 n) !! k = Some (f k).
Proof. intros Hk. by rewrite list_lookup_fmap, lookup_seq_lt. Qed.

Lemma length_minute_names h m : length (minute_names h m) = 12%nat.
Proof. unfold minute_names. by rewrite (length_bind_const _ 1). Qed.

Lemma length_hour_names h : length (hour_names h) = 720%nat.
Proof.
  unfold hour_names.
  by rewrite (length_bind_const _ 12) by apply length_minute_names.
Qed.

Lemma len_fallback_names : Py.len fallback_names = 17280.
Proof.
  unfold Py.len.
  change fallback_names with (Py.range 24 ≫= hour_names).
  by rewrite (length_bind_const _ 720) by apply length_hour_names.
Qed.

(** The name of hour [h], minute [m] and second [5 * j] sits at position
    [720 * h + 12 * m + j]. *)
Lemma fallback_names_at (h m j : nat) :
  (h < 24)%nat → (m < 60)%nat → (j < 12)%nat →
  fallback_names !! (h * 720 + (m * 12 + j))%nat
  = Some (candidate_name (Z.of_nat h) (Z.of_nat m) (5 * Z.of_nat j)).
Proof.
  intros Hh Hm Hj.
  change fallback_names with (Py.range 24 ≫= hour_names).
  rewrite (lookup_bind_const _ 720 _ h _ (Z.of_nat h));
    [|apply length_hour_names|rewrite range_24; by apply lookup_fmap_seq|lia].
  unfold hour_names.
  rewrite (lookup_bind_const _ 12 _ m _ (Z.of_nat m));
    [|apply length_minute_names|rewrite range_60; by apply lookup_fmap_seq|lia].
  unfold minute_names.
  replace j with (j * 1 + 0)%nat at 1 by lia.
  rewrite (lookup_bind_const _ 1 _ j _ (5 * Z.of_nat j));
    [done|done|rewrite range3_60_5; by apply (lookup_fmap_seq (λ j : nat, 5 * Z.of_nat j))|lia].
Qed.

(** The name at position [i]. *)
Lemma fallback_names_lookup (i : nat) :
  Z.of_nat i < 17280 →
  let k := Z.of_nat i in
  fallback_names !! i
  = Some (candidate_name (k / 720) ((k / 12) `mod` 60) (5 * (k `mod` 12))).
Proof.
  intros Hi k.
  pose proof (fallback_names_at (Z.to_nat (k / 720))
    (Z.to_nat ((k / 12) `mod` 60)) (Z.to_nat (k `mod` 12))) as H.
  rewrite !Z2Nat.id in H by (subst k; div_lia).
  rewrite <- H by (subst k; div_lia).
  f_equal. subst k. div_lia.
Qed.

End FallbackFacts.

(** C1.  The Fallback Generator, run on the empty result of the extraction,
    lists 24 * 60 * 12 = 17280 names.  The name at position [i] is
    [HHMMSSZ.json.gz] for hour [i / 720], minute [(i / 12) mod 60] and second
    [5 * (i mod 12)], every field written with two digits, and stands for the
    time of day [5 * i] seconds: one name for every 5-second boundary of the
    day, hours 0-23, minutes 0-59, seconds 0, 5, ..., 55, in strictly
    ascending order of time. *)
Theorem fallback_generator_enumerates_day :
  Py.len (generate_fallback []) = 24 * 60 * 12
  ∧ (∀ i : nat, Z.of_nat i < 17280 →
       let k := Z.of_nat i in
       ∃ f, generate_fallback [] !! i = Some f
         ∧ f = candidate_name (k / 720) ((k / 12) `mod` 60) (5 * (k `mod` 12))
         ∧ parse_name f = Some (k / 720, (k / 12) `mod` 60, 5 * (k `mod` 12))
         ∧ time_of_day f = Some (5 * k))
  ∧ Forall (λ f, ∃ h m s, parse_name f = Some (h, m, s)
               ∧ 0 ≤ h ≤ 23 ∧ 0 ≤ m ≤ 59 ∧ 0 ≤ s ≤ 55 ∧ s `mod` 5 = 0)
      (generate_fallback [])
  ∧ (∀ (i j : nat) (fi fj : string),
       (i < j)%nat →
       generate_fallback [] !! i = Some fi →
       generate_fallback [] !! j = Some fj →
       ∃ ti tj, time_of_day fi = Some ti ∧ time_of_day fj = Some tj ∧ ti < tj).
Proof.
  rewrite generate_fallback_nil.
  assert (∀ i : nat, Z.of_nat i < 17280 →
            let k := Z.of_nat i in
            ∃ f, fallback_names !! i = Some f
              ∧ f = candidate_name (k / 720) ((k / 12) `mod` 60) (5 * (k `mod` 12))
              ∧ parse_name f = Some (k / 720, (k / 12) `mod` 60, 5 * (k `mod` 12))
              ∧ time_of_day f = Some (5 * k)) as Hat.
  { intros i Hi k. eexists. split; [by apply fallback_names_lookup|].
    split; [done|]. split.
    - apply parse_candidate_name; subst k; div_lia.
    - rewrite time_of_candidate_name by (subst k; div_lia).
      f_equal. subst k. div_lia. }
  assert (∀ (i : nat) f, fallback_names !! i = Some f → Z.of_nat i < 17280) as Hlt.
  { intros i f Hf. apply lookup_lt_Some in Hf.
    pose proof len_fallback_names as Hlen. unfold Py.len in Hlen. lia. }
  split; [by rewrite len_fallback_names|].
  split; [exact Hat|]. split.
  - apply Forall_lookup. intros i f Hf.
    destruct (Hat i (Hlt _ _ Hf)) as (f' & Hf' & _ & Hparse & _).
    simplify_eq. eexists _, _, _. split; [exact Hparse|].
    pose proof (Hlt _ _ Hf). div_lia.
  - intros i j fi fj Hij Hfi Hfj.
    destruct (Hat i (Hlt _ _ Hfi)) as (? & ? & _ & _ & Hti).
    destruct (Hat j (Hlt _ _ Hfj)) as (? & ? & _ & _ & Htj).
    simplify_eq. eexists _, _. split; [exact Hti|]. split; [exact Htj|]. lia.
Qed.

Lemma fallback_generator_enumerates_day_witness :
  ∃ f, generate_fallback [] !! 733%nat = Some f
    ∧ f = "010105Z.json.gz"
    ∧ parse_name f = Some (1, 1, 5)
    ∧ time_of_day f = Some 3665.
Proof.
  destruct fallback_generator_enumerates_day as (_ & Hat & _).
  destruct (Hat 733%nat) as (f & Hf & Heq & Hparse & Htime); [lia|].
  exists f. split; [exact Hf|]. split; [rewrite Heq; reflexivity|].
  split; [exact Hparse|exact Htime].
Defined.

(** ** The Page Link Extractor *)

Section ExtractorFacts.

Lemma qualifies_spec (a : Tag) :
  tag_name a = "a" →
  qualifies a = true ↔ ∃ h, qualifying_link a h.
Proof.
  intros Ha. unfold qualifies, qualifying_link. split.
  - destruct (tag_get "href" a) as [h|]; [|done].
    intros [_ Hc]%andb_true_iff. exists h. by rewrite <- contains_spec.
  - intros (h & _ & -> & Hc%contains_spec).
    apply andb_true_iff. split; [|done].
    by apply (contains_nonempty ".json").
Qed.

Lemma extract_links_cons (a : Tag) (soup : list Tag) :
  extract_links (a :: soup)
  = (if decide (tag_name a = "a") then
       if qualifies a then option_list (tag_get "href" a) else []
     else []) ++ extract_links soup.
Proof.
  unfold extract_links, find_all. rewrite filter_cons.
  destruct (decide (tag_name a = "a")) as [Ha|Ha]; [|done].
  rewrite filter_cons. destruct (qualifies a) eqn:Hq.
  - rewrite decide_True by done. simpl. by destruct (tag_get "href" a).
  - by rewrite decide_False by done.
Qed.

Lemma extract_links_app (s1 s2 : list Tag) :
  extract_links (s1 ++ s2) = extract_links s1 ++ extract_links s2.
Proof.
  unfold extract_links, find_all. by rewrite !filter_app, omap_app.
Qed.

Lemma extract_links_extracted (soup : list Tag) :
  Extracted soup (extract_links soup).
Proof.
  induction soup as [|a soup IH]; [constructor|].
  rewrite extract_links_cons.
  destruct (decide (tag_name a = "a")) as [Ha|Ha].
  - destruct (qualifies a) eqn:Hq.
    + apply qualifies_spec in Hq as [h Hh]; [|done].
      destruct Hh as (? & Hget & ?). rewrite Hget. simpl.
      by apply Extracted_link.
    + apply Extracted_skip; [|done].
      intros h Hh. assert (qualifies a = true) by (apply qualifies_spec; eauto).
      congruence.
  - apply Extracted_skip; [|done]. by intros h [? _].
Qed.

Lemma Extracted_elem_of (soup : list Tag) (links : list string) :
  Extracted soup links →
  ∀ h, h ∈ links ↔ ∃ a, a ∈ soup ∧ qualifying_link a h.
Proof.
  induction 1 as [|a h' soup links Hq _ IH|a soup links Hq _ IH]; intros h.
  - split; [by intros ?%elem_of_nil|by intros (? & ?%elem_of_nil & _)].
  - rewrite elem_of_cons, IH. split.
    + intros [->|(b & Hb & Hqb)]; [exists a|exists b]; by rewrite elem_of_cons; eauto.
    + intros (b & [->|Hb]%elem_of_cons & Hqb); [left|right; eauto].
      destruct Hq as (_ & Hget & _), Hqb as (_ & Hget' & _). congruence.
  - rewrite IH. split.
    + intros (b & Hb & Hqb). exists b. by rewrite elem_of_cons; eauto.
    + intros (b & [->|Hb]%elem_of_cons & Hqb); [by destruct (Hq h)|eauto].
Qed.

Lemma Extracted_none (soup : list Tag) (links : list string) :
  Extracted soup links →
  (∀ a h, a ∈ soup → ¬ qualifying_link a h) → links = [].
Proof.
  intros Hex Hnone. destruct links as [|h links]; [done|].
  destruct (proj1 (Extracted_elem_of _ _ Hex h)) as (a & Ha & Hq); [left|].
  by destruct (Hnone a h).
Qed.

End ExtractorFacts.

(** C8.  For every parsed page the extractor returns the hyperlink of every
    anchor whose hyperlink contains [.json]: one entry per such anchor, in
    document order, duplicates kept ([Extracted]), so a string is returned
    exactly when some anchor of the page carries it; a page without such an
    anchor gives the empty list, and no exception is raised (the extractor
    is a total function). *)
Theorem page_link_extractor (soup : list Tag) :
  Extracted soup (extract_links soup)
  ∧ (∀ h, h ∈ extract_links soup ↔ ∃ a, a ∈ soup ∧ qualifying_link a h)
  ∧ ((∀ a h, a ∈ soup → ¬ qualifying_link a h) → extract_links soup = []).
Proof.
  pose proof (extract_links_extracted soup) as Hex.
  split; [done|]. split; [by apply Extracted_elem_of|by apply Extracted_none].
Qed.

Lemma page_link_extractor_witness :
  extract_links [anchor "index.html"; mkTag "p" ∅] = [].
Proof.
  apply (page_link_extractor [anchor "index.html"; mkTag "p" ∅]).
  intros a h Ha (Hname & Hget & Hmark).
  apply contains_spec in Hmark.
  apply elem_of_cons in Ha as [->|Ha].
  - vm_compute in Hget. injection Hget as <-. vm_compute in Hmark. discriminate.
  - apply list_elem_of_singleton in Ha as ->. vm_compute in Hname. discriminate.
Defined.

Example extract_links_keeps_order_and_duplicates :
  extract_links
    [anchor "b.json.gz"; mkTag "img" {[ "href" := "c.json" ]}; anchor "";
     anchor "a.json.gz"; mkTag "a" ∅; anchor "readme.txt"; anchor "b.json.gz"]
  = ["b.json.gz"; "a.json.gz"; "b.json.gz"].
Proof. vm_compute. reflexivity. Qed.

(** ** The Acquisition Orchestrator: extraction or fallback *)

Section OrchestratorFacts.
Variable env : Env.

Lemma extract_links_nonempty (soup : list Tag) :
  (∃ a h, a ∈ soup ∧ qualifying_link a h) → extract_links soup ≠ [].
Proof.
  intros (a & h & Ha & Hq) Hnil.
  assert (h ∈ extract_links soup) as Hin.
  { apply (Extracted_elem_of soup); [apply extract_links_extracted|eauto]. }
  rewrite Hnil in Hin. by apply elem_of_nil in Hin.
Qed.

(** The run of [collect_links] once the listing page is there. *)
Lemma collect_links_run (w : World) (r : Response) :
  remote env (length (http_log w)) (base_url env) = Reply r →
  let links := extract_links (BeautifulSoup env (text r)) in
  ∃ w', match links with
        | [] =>
            collect_links env w = (Ret (generate_fallback []), w')
            ∧ stdout w' = stdout w ++
                ["HTML parser found 0 links (Likely Cloudflare protection).";
                 "Engaging fallback: generating exact filenames mathematically...";
                 "Total files available/generated: 17280"]
        | _ :: _ =>
            collect_links env w = (Ret links, w')
            ∧ stdout w' = stdout w ++
                ["Total files available/generated: " +:+ Py.str (Py.len links)]
        end
    ∧ http_log w' = http_log w ++ [base_url env]
    ∧ s3_objects w' = s3_objects w.
Proof.
  intros Hreply links.
  unfold collect_links, mbind, M_bind, requests_get. rewrite Hreply.
  fold links. destruct links as [|l ls].
  - simpl. eexists. split; [split; [reflexivity|]|by split]. simpl.
    rewrite generate_fallback_nil, len_fallback_names.
    rewrite <- !app_assoc. reflexivity.
  - eexists. split; [split; reflexivity|by split].
Qed.

(** C5.  After the listing page has been retrieved, the orchestrator uses
    the extracted links as they are when the page has at least one
    qualifying link, and then the generator is not run (nothing but the
    total is printed); when the page has no qualifying link the candidate
    list is the whole output of the Fallback Generator, announced by the
    two fallback lines.  In both cases this is the list before truncation
    to [file_limit]. *)
Theorem fallback_iff_extraction_empty (w : World) (r : Response) :
  remote env (length (http_log w)) (base_url env) = Reply r →
  let soup := BeautifulSoup env (text r) in
  ((∃ a h, a ∈ soup ∧ qualifying_link a h) →
     ∃ w', collect_links env w = (Ret (extract_links soup), w')
       ∧ extract_links soup ≠ []
       ∧ stdout w' = stdout w ++
           ["Total files available/generated: "
              +:+ Py.str (Py.len (extract_links soup))])
  ∧ ((∀ a h, a ∈ soup → ¬ qualifying_link a h) →
     ∃ w', collect_links env w = (Ret (generate_fallback []), w')
       ∧ stdout w' = stdout w ++
           ["HTML parser found 0 links (Likely Cloudflare protection).";
            "Engaging fallback: generating exact filenames mathematically...";
            "Total files available/generated: 17280"]).
Proof.
  intros Hreply soup.
  destruct (collect_links_run w r Hreply) as (w' & Hrun & _).
  fold soup in Hrun. split.
  - intros Hsome. pose proof (extract_links_nonempty soup Hsome) as Hne.
    destruct (extract_links soup) as [|l ls]; [done|].
    destruct Hrun as [Hrun Hout]. by exists w'.
  - intros Hnone.
    assert (extract_links soup = []) as Hnil
      by (by apply (Extracted_none soup); [apply extract_links_extracted|]).
    rewrite Hnil in Hrun. destruct Hrun as [Hrun Hout]. by exists w'.
Qed.

End OrchestratorFacts.

Lemma fallback_iff_extraction_empty_witness :
  (∃ w', collect_links env_listing empty_world
          = (Ret ["000000Z.json.gz"; "000005Z.json.gz"; "000010Z.json.gz"], w')
      ∧ stdout w' = ["Total files available/generated: 3"])
  ∧ (∃ w', collect_links env_fallback empty_world = (Ret (generate_fallback []), w')
      ∧ stdout w' =
          ["HTML parser found 0 links (Likely Cloudflare protection).";
           "Engaging fallback: generating exact filenames mathematically...";
           "Total files available/generated: 17280"]).
Proof.
  split.
  - destruct (fallback_iff_extraction_empty env_listing empty_world
                (mkResponse 200 "" [x7b; x7d]) eq_refl) as [Hsome _].
    destruct Hsome as (w' & Hrun & _ & Hout).
    + exists (anchor "000000Z.json.gz"), "000000Z.json.gz". split.
      * apply list_elem_of_lookup_2 with 2%nat. reflexivity.
      * split; [reflexivity|]. split; [reflexivity|].
        exists "000000Z", ".gz". reflexivity.
    + exists w'. split; [exact Hrun|exact Hout].
  - destruct (fallback_iff_extraction_empty env_fallback empty_world
                (mkResponse 200 "" [x7b; x7d]) eq_refl) as [_ Hnone].
    destruct Hnone as (w' & Hrun & Hout).
    + intros a h Ha. apply elem_of_nil in Ha. destruct Ha.
    + exists w'. split; [exact Hrun|exact Hout].
Defined.

(** ** The Bounded Batch Fetcher *)

Section FetcherFacts.
Variable env : Env.

(** One round of the loop, by the reply of the remote. *)
Lemma fetch_item_step (n c : Z) (f : string) (w : World) :
  ∃ seg, final_segment f seg
    ∧ Py.getitem (Py.split "/" f) (-1) = Some seg
    ∧ fetch_item env n c f w =
        match remote env (length (http_log w)) (file_url env f) with
        | Fails e => (Raise e, log_request (file_url env f) w)
        | Reply r =>
            let w1 := log_request (file_url env f) w in
            if status_code r =? 200 then
              let w2 := put_object (bucket env) ("raw/day=20231101/" +:+ seg) (raw r) w1 in
              (Ret (c + 1),
               if (c + 1) `mod` 50 =? 0
               then write_line ("Successfully uploaded " +:+ Py.str (c + 1)
                                +:+ " out of " +:+ Py.str n +:+ "...") w2
               else w2)
            else
              (Ret c,
               write_line ("Failed to download " +:+ seg +:+ " (HTTP "
                           +:+ Py.str (status_code r) +:+ ")") w1)
        end.
Proof.
  destruct (split_last_segment f) as (seg & Hseg & Hfinal).
  exists seg. split; [done|]. split; [done|].
  unfold fetch_item, s3_filename_of, mbind, M_bind, requests_get.
  rewrite Hseg. unfold mret, M_ret.
  destruct (remote env (length (http_log w)) (file_url env f)) as [r|e]; [|done].
  cbv zeta. destruct (status_code r =? 200); [|done].
  unfold upload_fileobj, Py.mod_, s3_prefix_path.
  by destruct ((c + 1) `mod` 50 =? 0).
Qed.

Lemma for_each_fetch_cons (n c : Z) (f : string) (rest : list string) (w : World) :
  for_each (fetch_item env n) c (f :: rest) w =
    match fetch_item env n c f w with
    | (Ret c', w') => for_each (fetch_item env n) c' rest w'
    | (Raise e, w') => (Raise e, w')
    end.
Proof. reflexivity. Qed.

(** What one round does to the log of requests and to the store. *)
Lemma fetch_item_http_log (n c : Z) (f : string) (w : World) :
  http_log (fetch_item env n c f w).2 = http_log w ++ [file_url env f].
Proof.
  destruct (fetch_item_step n c f w) as (seg & _ & _ & ->).
  destruct (remote env _ _) as [r|e]; [|done].
  cbv zeta. destruct (status_code r =? 200); [|done].
  by destruct ((c + 1) `mod` 50 =? 0).
Qed.



End FetcherFacts.

Section FetcherClaims.
Variable env : Env.





End FetcherClaims.



(** ** Failures of a single candidate *)

Section FailureFacts.
Variable env : Env.


End FailureFacts.



(** ** Resolving the URL of a candidate *)

Section UrlFacts.
Variable env : Env.

(** C7, as the code has it.  The test is on the first four characters: a
    name that starts with [http], which every absolute [http://] or
    [https://] URL does, is used as it is; every other name is appended
    to the base URL. *)
Theorem file_url_by_http_prefix (f : string) :
  ((∃ t, f = "http" +:+ t) → file_url env f = f)
  ∧ ((¬ ∃ t, f = "http" +:+ t) → file_url env f = base_url env +:+ f)
  ∧ (∀ t, f = "http://" +:+ t ∨ f = "https://" +:+ t → file_url env f = f).
Proof.
  assert ((∃ t, f = "http" +:+ t) → file_url env f = f) as Hhttp.
  { intros Ht%prefix_spec. unfold file_url, Py.startswith. by rewrite Ht. }
  split; [done|]. split.
  - intros Hno. unfold file_url, Py.startswith.
    destruct (String.prefix "http" f) eqn:E; [|done].
    apply prefix_spec in E. by destruct Hno.
  - intros t [-> | ->]; apply Hhttp; [by exists ("://" +:+ t)|by exists ("s://" +:+ t)].
Qed.

End UrlFacts.

Lemma file_url_by_http_prefix_witness :
  file_url env_listing "http://mirror/000000Z.json.gz" = "http://mirror/000000Z.json.gz"
  ∧ file_url env_listing "000000Z.json.gz"
    = "https://samples.example.org/readsb-hist/2023/11/01/000000Z.json.gz".
Proof.
  split.
  - apply (file_url_by_http_prefix env_listing "http://mirror/000000Z.json.gz").
    exists "://mirror/000000Z.json.gz". reflexivity.
  - apply (file_url_by_http_prefix env_listing "000000Z.json.gz").
    intros [t Ht]. discriminate Ht.
Defined.

(** C7 as stated fails: a relative name that merely starts with [http] is
    not an absolute URL, yet it is used as it is and not appended to the
    base URL. *)
Lemma relative_name_used_unresolved :
  is_absolute_url "httpdocs/000000Z.json.gz" = false
  ∧ file_url env_listing "httpdocs/000000Z.json.gz" = "httpdocs/000000Z.json.gz"
  ∧ file_url env_listing "httpdocs/000000Z.json.gz"
    ≠ base_url env_listing +:+ "httpdocs/000000Z.json.gz".
Proof. vm_compute. repeat split; discriminate. Qed.

(** In the other direction, an absolute URL of another scheme is appended to
    the base URL. *)
Example absolute_url_of_other_scheme_is_appended :
  is_absolute_url "ftp://mirror/000000Z.json.gz" = true
  ∧ file_url env_listing "ftp://mirror/000000Z.json.gz"
    = "https://samples.example.org/readsb-hist/2023/11/01/ftp://mirror/000000Z.json.gz".
Proof. vm_compute. done. Qed.

(** ** Running the batch again *)

Section RerunFacts.
Variable env : Env.

(** The store after the writes: the last write to a key wins, other keys
    keep what they had. *)
Lemma put_all_union m objs :
  put_all m objs = list_to_map (reverse objs) ∪ m.
Proof.
  revert m. induction objs as [|[k v] objs IH]; intros m.
  - symmetry. apply (left_id_L ∅ (∪)).
  - change (put_all m ((k, v) :: objs)) with (put_all (<[k := v]> m) objs).
    rewrite IH, reverse_cons, list_to_map_app. simpl.
    rewrite <- (assoc_L (∪)). f_equal.
    by rewrite insert_union_singleton_l, insert_empty.
Qed.

Lemma put_all_twice m objs : put_all (put_all m objs) objs = put_all m objs.
Proof.
  rewrite !put_all_union. by rewrite (assoc_L (∪)), (idemp_L (∪)).
Qed.

Hypothesis remote_stationary : ∀ n m url, remote env n url = remote env m url.

Lemma fetch_loop_store (n c : Z) (links : list string) (w : World) :
  s3_objects (for_each (fetch_item env n) c links w).2
  = put_all (s3_objects w) (uploads env links).
Proof.
  revert c w. induction links as [|f rest IH]; intros c w; [done|].
  rewrite for_each_fetch_cons. simpl uploads.
  destruct (fetch_item_step env n c f w) as (seg & _ & Hseg & ->).
  rewrite Hseg, (remote_stationary _ 0%nat).
  destruct (remote env 0 (file_url env f)) as [r|e]; [|done].
  cbv zeta. destruct (status_code r =? 200).
  - rewrite IH. by destruct ((c + 1) `mod` 50 =? 0).
  - by rewrite IH.
Qed.

(** C9.  Against a remote that answers every URL the same way each time,
    running the Batch Fetcher a second time on the same candidates and
    limit leaves the store as the first run left it: the same keys, with
    the same contents, an upload under an existing key replacing the
    object. *)
Theorem refetch_same_keys (all_links : list string) (file_limit : Z) (w : World) :
  let links := links_to_download all_links file_limit in
  let w1 := (fetch_batch env links w).2 in
  let w2 := (fetch_batch env links w1).2 in
  dom (s3_objects w2) = dom (s3_objects w1)
  ∧ s3_objects w2 = s3_objects w1.
Proof.
  intros links w1 w2.
  assert (s3_objects w2 = s3_objects w1) as Hsame.
  { subst w1 w2. unfold fetch_batch.
    by rewrite !fetch_loop_store, put_all_twice. }
  by rewrite Hsame.
Qed.

End RerunFacts.

Lemma refetch_same_keys_witness :
  let links := links_to_download ["000000Z.json.gz"; "000005Z.json.gz"; "000010Z.json.gz"] 2 in
  let w1 := (fetch_batch env_listing links empty_world).2 in
  let w2 := (fetch_batch env_listing links w1).2 in
  dom (s3_objects w2) = dom (s3_objects w1) ∧ s3_objects w2 = s3_objects w1.
Proof.
  apply (refetch_same_keys env_listing).
  intros n m url. reflexivity.
Defined.

(** ** The limit *)

Section LimitFacts.
Variable env : Env.

(** The handler as the sequence of its three phases. *)
Lemma download_data_run (file_limit : Z) (w : World) :
  download_data env file_limit w =
    let w0 := write_line ("URL: " +:+ base_url env)
                (write_line ("Bucket: " +:+ bucket env)
                   (write_line (newline +:+ "--- STARTING DOWNLOAD ---") w)) in
    match collect_links env w0 with
    | (Raise e, w1) => (Raise e, w1)
    | (Ret all_links, w1) =>
        let links := links_to_download all_links file_limit in
        match fetch_batch env links
                (write_line ("Attempting to download " +:+ Py.str (Py.len links)
                             +:+ " files to S3..." +:+ newline) w1) with
        | (Raise e, w2) => (Raise e, w2)
        | (Ret c, w2) =>
            (Ret "OK",
             write_line (newline +:+ "--- DONE! Successfully uploaded "
                         +:+ Py.str c +:+ " files ---") w2)
        end
    end.
Proof.
  unfold download_data, mbind, M_bind, print. cbv zeta.
  destruct (collect_links env _) as [[all_links|e] w1]; [|done].
  by destruct (fetch_batch env _ _) as [[c|e] w2].
Qed.

(** A batch in which every fetch is answered with 200 stores every
    candidate. *)
Lemma fetch_loop_all_stored (n c : Z) (links : list string) (w : World) :
  (∀ k url, ∃ r, remote env k url = Reply r ∧ status_code r = 200) →
  ∃ w', for_each (fetch_item env n) c links w = (Ret (c + Py.len links), w')
    ∧ http_log w' = http_log w ++ (file_url env <$> links).
Proof.
  intros Hok. revert c w. induction links as [|f rest IH]; intros c w.
  - exists w. unfold Py.len. simpl. rewrite Z.add_0_r, app_nil_r. done.
  - rewrite for_each_fetch_cons.
    pose proof (fetch_item_http_log env n c f w) as Hlog.
    destruct (fetch_item_step env n c f w) as (seg & _ & _ & Hstep).
    destruct (Hok (length (http_log w)) (file_url env f)) as (r & Hr & Hstatus).
    rewrite Hr in Hstep. cbv zeta in Hstep. rewrite Hstatus in Hstep.
    change (200 =? 200) with true in Hstep. cbv iota in Hstep.
    destruct (fetch_item env n c f w) as [res wi]. simpl in Hlog.
    injection Hstep as -> _.
    destruct (IH (c + 1) wi) as (w' & Hrun & Hlog').
    exists w'. split.
    + rewrite Hrun. unfold Py.len. simpl length.
      by replace (c + 1 + Z.of_nat (length rest)) with (c + Z.of_nat (S (length rest))) by lia.
    + rewrite Hlog', Hlog, <- app_assoc. done.
Qed.

(** With [file_limit = 0] no candidate is requested and nothing is
    stored, and the handler returns ["OK"]. *)
Lemma zero_limit_fetches_nothing (w : World) (r : Response) :
  remote env (length (http_log w)) (base_url env) = Reply r →
  ∃ w', download_data env 0 w = (Ret "OK", w')
    ∧ http_log w' = http_log w ++ [base_url env]
    ∧ s3_objects w' = s3_objects w.
Proof.
  intros Hreply. rewrite download_data_run. cbv zeta.
  set (w0 := write_line ("URL: " +:+ base_url env)
               (write_line ("Bucket: " +:+ bucket env)
                  (write_line (newline +:+ "--- STARTING DOWNLOAD ---") w))).
  destruct (collect_links_run env w0 r Hreply) as (w1 & Hrun & Hlog & Hs3).
  assert (∃ all_links, collect_links env w0 = (Ret all_links, w1))
    as [all_links ->].
  { destruct (extract_links _); destruct Hrun as [-> _]; eauto. }
  unfold links_to_download. rewrite slice_to_zero. simpl.
  eexists. split; [reflexivity|]. by split.
Qed.

(** A negative [file_limit] drops that many candidates from the end and
    keeps the others. *)
Lemma negative_limit_links (all_links : list string) (file_limit : Z) :
  file_limit < 0 →
  links_to_download all_links file_limit
  = take (length all_links - Z.to_nat (- file_limit)) all_links
  ∧ Py.len (links_to_download all_links file_limit)
    = Z.max 0 (Py.len all_links + file_limit).
Proof.
  intros Hneg. unfold links_to_download.
  split; [by apply slice_to_neg|by apply len_slice_to_neg].
Qed.

(** The run of the handler on a page without qualifying links, every file
    being served: the listing page and each candidate left by the limit
    are requested, and each candidate is stored. *)
Lemma download_data_fallback_run (file_limit : Z) (w : World) (r : Response) :
  remote env (length (http_log w)) (base_url env) = Reply r →
  extract_links (BeautifulSoup env (text r)) = [] →
  (∀ k url, ∃ r, remote env k url = Reply r ∧ status_code r = 200) →
  let links := links_to_download (generate_fallback []) file_limit in
  ∃ w', download_data env file_limit w = (Ret "OK", w')
    ∧ Py.len (http_log w') = Py.len (http_log w) + 1 + Py.len links
    ∧ last (stdout w')
      = Some (newline +:+ "--- DONE! Successfully uploaded "
              +:+ Py.str (0 + Py.len links) +:+ " files ---").
Proof.
  intros Hreply Hnil Hok links. rewrite download_data_run. cbv zeta.
  set (w0 := write_line ("URL: " +:+ base_url env)
               (write_line ("Bucket: " +:+ bucket env)
                  (write_line (newline +:+ "--- STARTING DOWNLOAD ---") w))).
  destruct (collect_links_run env w0 r Hreply) as (w1 & Hrun & Hlog & _).
  rewrite Hnil in Hrun. destruct Hrun as [-> _]. fold links.
  clearbody links.
  destruct (fetch_loop_all_stored (Py.len links) 0 links
              (write_line ("Attempting to download " +:+ Py.str (Py.len links)
                           +:+ " files to S3..." +:+ newline) w1) Hok)
    as (w2 & Hrun2 & Hlog2).
  unfold fetch_batch. rewrite Hrun2.
  eexists. split; [reflexivity|]. split.
  - unfold Py.len. simpl http_log. rewrite Hlog2. simpl http_log.
    rewrite Hlog, !length_app, length_fmap. simpl. lia.
  - simpl stdout. by rewrite last_snoc.
Qed.

End LimitFacts.

(** C3 at [file_limit = -1].  On a page without links, with every file
    served, the handler returns ["OK"] after requesting the listing page and
    17279 of the 17280 generated candidates, and reports 17279 uploads. *)
Theorem negative_limit_fetches_all_but_last :
  ∃ w', download_data env_fallback (-1) empty_world = (Ret "OK", w')
    ∧ Py.len (http_log w') = 1 + 17279
    ∧ last (stdout w')
      = Some (newline +:+ "--- DONE! Successfully uploaded 17279 files ---").
Proof.
  assert (Py.len (links_to_download (generate_fallback []) (-1)) = 17279) as Hlen.
  { destruct (negative_limit_links (generate_fallback []) (-1)) as [_ ->]; [lia|].
    rewrite generate_fallback_nil, len_fallback_names. reflexivity. }
  destruct (download_data_fallback_run env_fallback (-1) empty_world
              (mkResponse 200 "" [x7b; x7d]) eq_refl eq_refl)
    as (w' & Hrun & Hlog & Hout).
  { intros k url. exists (mkResponse 200 "" [x7b; x7d]). split; reflexivity. }
  rewrite Hlen in Hlog, Hout.
  exists w'. split; [exact Hrun|]. split; [exact Hlog|exact Hout].
Qed.

(** ** The prepare handler *)

Section PrepareFacts.
Variable env : Env.

Lemma for_each_cons {A S} (body : S → A → M S) (acc : S) (x : A) (l : list A)
    (w : World) :
  for_each body acc (x :: l) w =
    match body acc x w with
    | (Ret acc', w') => for_each body acc' l w'
    | (Raise e, w') => (Raise e, w')
    end.
Proof. reflexivity. Qed.









End PrepareFacts.



Example prepare_sample_files :
  map_to_list (local_files (prepare_data env_listing sample_pages sample_store_world).2)
  ≡ₚ [("data/prepared/day=20231101/000000Z.json.gz", [x7b; x7d]);
      ("data/prepared/day=20231101/000005Z.json.gz", [x5b; x5d])].
Proof. vm_compute. apply perm_swap || reflexivity. Qed.

(** ** Further properties of the download handler *)

Section DownloadFacts.
Variable env : Env.

(** The world after the three banner lines. *)
Lemma banner_world (w : World) :
  let w0 := write_line ("URL: " +:+ base_url env)
              (write_line ("Bucket: " +:+ bucket env)
                 (write_line (newline +:+ "--- STARTING DOWNLOAD ---") w)) in
  http_log w0 = http_log w ∧ s3_objects w0 = s3_objects w
  ∧ local_files w0 = local_files w
  ∧ stdout w0 = stdout w ++ [newline +:+ "--- STARTING DOWNLOAD ---";
                             "Bucket: " +:+ bucket env;
                             "URL: " +:+ base_url env].
Proof. repeat split. simpl. by rewrite <- !app_assoc. Qed.

(** X1.  A failure to retrieve the listing page is fatal: the exception
    leaves the handler, after the three banner lines and that one request;
    no candidate is requested and nothing is stored. *)
Theorem listing_failure_is_fatal (file_limit : Z) (w : World) (e : exn) :
  remote env (length (http_log w)) (base_url env) = Fails e →
  ∃ w', download_data env file_limit w = (Raise e, w')
    ∧ http_log w' = http_log w ++ [base_url env]
    ∧ s3_objects w' = s3_objects w
    ∧ stdout w' = stdout w ++ [newline +:+ "--- STARTING DOWNLOAD ---";
                               "Bucket: " +:+ bucket env;
                               "URL: " +:+ base_url env].
Proof.
  intros Hfail. rewrite download_data_run. cbv zeta.
  destruct (banner_world w) as (Hlog & Hs3 & _ & Hout).
  set (w0 := write_line ("URL: " +:+ base_url env)
               (write_line ("Bucket: " +:+ bucket env)
                  (write_line (newline +:+ "--- STARTING DOWNLOAD ---") w))) in *.
  rewrite <- Hlog in Hfail. clearbody w0.
  unfold collect_links, mbind, M_bind, requests_get.
  rewrite Hfail. eexists. split; [reflexivity|].
  simpl. by rewrite Hlog, Hs3, Hout.
Qed.

(** X2.  With [file_limit = 0] and the listing page retrieved, the handler
    returns ["OK"] having requested the listing page only; the store is as
    it was, and the last line reports 0 uploads. *)
Theorem zero_limit_requests_listing_only (w : World) (r : Response) :
  remote env (length (http_log w)) (base_url env) = Reply r →
  ∃ w', download_data env 0 w = (Ret "OK", w')
    ∧ http_log w' = http_log w ++ [base_url env]
    ∧ s3_objects w' = s3_objects w
    ∧ last (stdout w')
      = Some (newline +:+ "--- DONE! Successfully uploaded 0 files ---").
Proof.
  intros Hreply. rewrite download_data_run. cbv zeta.
  destruct (banner_world w) as (Hlog & Hs3 & _ & _).
  set (w0 := write_line ("URL: " +:+ base_url env)
               (write_line ("Bucket: " +:+ bucket env)
                  (write_line (newline +:+ "--- STARTING DOWNLOAD ---") w))) in *.
  rewrite <- Hlog in Hreply. clearbody w0.
  destruct (collect_links_run env w0 r Hreply) as (w1 & Hrun & Hlog1 & Hs31).
  assert (∃ all_links, collect_links env w0 = (Ret all_links, w1))
    as [all_links ->].
  { destruct (extract_links _); destruct Hrun as [-> _]; eauto. }
  unfold links_to_download. rewrite slice_to_zero. simpl.
  eexists. split; [reflexivity|]. simpl.
  rewrite Hlog1, Hs31, Hlog, Hs3, last_snoc. done.
Qed.

(** X3.  A negative [file_limit] does not mean "none": it drops that many
    candidates from the end of the list and keeps the others, in order.
    Nothing is kept only when the list has no more than [- file_limit]
    elements. *)
Theorem negative_limit_drops_from_end (all_links : list string) (file_limit : Z) :
  file_limit < 0 →
  ∃ dropped, all_links = links_to_download all_links file_limit ++ dropped
    ∧ Py.len dropped = Z.min (- file_limit) (Py.len all_links)
    ∧ (links_to_download all_links file_limit = []
       ↔ Py.len all_links ≤ - file_limit).
Proof.
  intros Hneg. unfold links_to_download. rewrite slice_to_neg by done.
  set (k := (length all_links - Z.to_nat (- file_limit))%nat).
  exists (drop k all_links). split; [by rewrite take_drop|]. split.
  - unfold Py.len. rewrite length_drop. lia.
  - unfold Py.len. split.
    + intros Hnil. apply (f_equal length) in Hnil.
      rewrite length_take in Hnil. simpl in Hnil. lia.
    + intros Hle. replace k with 0%nat by lia. done.
Qed.

End DownloadFacts.

Lemma listing_failure_is_fatal_witness :
  ∃ w', download_data env_down 5 empty_world = (Raise ConnectionError, w')
    ∧ http_log w' = ["https://samples.example.org/readsb-hist/2023/11/01/"]
    ∧ s3_objects w' = ∅.
Proof.
  destruct (listing_failure_is_fatal env_down 5 empty_world ConnectionError eq_refl)
    as (w' & Hrun & Hlog & Hs3 & _).
  exists w'. split; [exact Hrun|]. split; [exact Hlog|exact Hs3].
Defined.

Lemma zero_limit_requests_listing_only_witness :
  ∃ w', download_data env_listing 0 empty_world = (Ret "OK", w')
    ∧ http_log w' = ["https://samples.example.org/readsb-hist/2023/11/01/"]
    ∧ s3_objects w' = ∅.
Proof.
  destruct (zero_limit_requests_listing_only env_listing empty_world
              (mkResponse 200 "" [x7b; x7d]) eq_refl)
    as (w' & Hrun & Hlog & Hs3 & _).
  exists w'. split; [exact Hrun|]. split; [exact Hlog|exact Hs3].
Defined.

Lemma negative_limit_drops_from_end_witness :
  ∃ dropped,
    ["a.json"; "b.json"; "c.json"]
    = links_to_download ["a.json"; "b.json"; "c.json"] (-1) ++ dropped
    ∧ Py.len dropped = 1.
Proof.
  destruct (negative_limit_drops_from_end ["a.json"; "b.json"; "c.json"] (-1))
    as (dropped & Heq & Hlen & _); [lia|].
  exists dropped. split; [exact Heq|exact Hlen].
Defined.

Section FetcherExtraFacts.
Variable env : Env.

Lemma collect_links_footprint (w : World) :
  s3_objects (collect_links env w).2 = s3_objects w
  ∧ local_files (collect_links env w).2 = local_files w.
Proof.
  unfold collect_links, mbind, M_bind, requests_get.
  destruct (remote env _ _) as [r|e]; [|done].
  by destruct (extract_links _).
Qed.

Lemma fetch_loop_footprint (n c : Z) (links : list string) (w : World) :
  local_files (for_each (fetch_item env n) c links w).2 = local_files w
  ∧ ∀ b k,
      b ≠ bucket env
      ∨ ¬ (∃ seg, k = "raw/day=20231101/" +:+ seg ∧ Py.contains "/" seg = false) →
      s3_objects (for_each (fetch_item env n) c links w).2 !! (b, k)
      = s3_objects w !! (b, k).
Proof.
  revert c w. induction links as [|f rest IH]; intros c w; [done|].
  rewrite for_each_fetch_cons.
  destruct (fetch_item_step env n c f w) as (seg & [Hseg _] & _ & ->).
  destruct (remote env _ _) as [r|e]; [|done].
  cbv zeta. destruct (status_code r =? 200).
  - destruct (IH (c + 1)
                (if (c + 1) `mod` 50 =? 0
                 then write_line ("Successfully uploaded " +:+ Py.str (c + 1)
                                  +:+ " out of " +:+ Py.str n +:+ "...")
                        (put_object (bucket env) ("raw/day=20231101/" +:+ seg)
                           (raw r) (log_request (file_url env f) w))
                 else put_object (bucket env) ("raw/day=20231101/" +:+ seg)
                        (raw r) (log_request (file_url env f) w)))
      as [Hfiles Hs3].
    split.
    + rewrite Hfiles. by destruct ((c + 1) `mod` 50 =? 0).
    + intros b k Hkey. rewrite Hs3 by done.
      assert ((bucket env, "raw/day=20231101/" +:+ seg) ≠ (b, k)) as Hne.
      { intros [= <- <-]. destruct Hkey as [Hb|Hk]; [done|]. apply Hk. eauto. }
      destruct ((c + 1) `mod` 50 =? 0); simpl; by rewrite lookup_insert_ne.
  - destruct (IH c (write_line ("Failed to download " +:+ seg +:+ " (HTTP "
                                +:+ Py.str (status_code r) +:+ ")")
                      (log_request (file_url env f) w))) as [Hfiles Hs3].
    split; [by rewrite Hfiles|]. intros b k Hkey. by rewrite Hs3.
Qed.

(** X4.  The download handler writes nowhere but into its own bucket, under
    keys made of [raw/day=20231101/] and a name without a slash: every
    other object of the store is, after any run, ended normally or not,
    what it was before.  It writes no local file. *)
Theorem download_footprint (file_limit : Z) (w : World) (b k : string) :
  b ≠ s3_bucket (settings env)
  ∨ ¬ (∃ seg, k = "raw/day=20231101/" +:+ seg ∧ Py.contains "/" seg = false) →
  s3_objects (download_data env file_limit w).2 !! (b, k) = s3_objects w !! (b, k)
  ∧ local_files (download_data env file_limit w).2 = local_files w.
Proof.
  intros Hkey. rewrite download_data_run. cbv zeta.
  set (w0 := write_line ("URL: " +:+ base_url env)
               (write_line ("Bucket: " +:+ bucket env)
                  (write_line (newline +:+ "--- STARTING DOWNLOAD ---") w))).
  assert (s3_objects w0 = s3_objects w ∧ local_files w0 = local_files w)
    as [Hs30 Hfiles0] by done.
  clearbody w0.
  destruct (collect_links_footprint w0) as [Hs31 Hfiles1].
  destruct (collect_links env w0) as [[all_links|e] w1]; simpl in Hs31, Hfiles1.
  - set (links := links_to_download all_links file_limit).
    set (w1' := write_line _ w1).
    destruct (fetch_loop_footprint (Py.len links) 0 links w1') as [Hfiles2 Hs32].
    specialize (Hs32 b k Hkey). unfold fetch_batch.
    destruct (for_each (fetch_item env (Py.len links)) 0 links w1')
      as [[c|e] w2]; simpl in *; by rewrite Hs32, Hfiles2, Hs31, Hfiles1, Hs30.
  - simpl. by rewrite Hs31, Hfiles1, Hs30.
Qed.

(** The count of a batch never goes down and goes up by at most one per
    candidate. *)
Lemma fetch_loop_count_bounds (n c : Z) (links : list string) (w : World)
    (c' : Z) (w' : World) :
  for_each (fetch_item env n) c links w = (Ret c', w') →
  c ≤ c' ≤ c + Py.len links.
Proof.
  revert c w. induction links as [|f rest IH]; intros c w.
  - intros [= <- _]. unfold Py.len. simpl. lia.
  - rewrite for_each_fetch_cons.
    destruct (fetch_item_step env n c f w) as (seg & _ & _ & ->).
    destruct (remote env _ _) as [r|e]; [|done].
    cbv zeta. unfold Py.len in *. simpl length.
    destruct (status_code r =? 200); intros Hrun%IH; lia.
Qed.

(** When every later request is answered with a status other than 200, the
    batch ends normally with its count and the store unchanged. *)
Lemma fetch_loop_none_stored (n c : Z) (links : list string) (w : World) :
  (∀ (k : nat) url, (length (http_log w) ≤ k)%nat →
     ∃ r, remote env k url = Reply r ∧ status_code r ≠ 200) →
  ∃ w', for_each (fetch_item env n) c links w = (Ret c, w')
    ∧ s3_objects w' = s3_objects w.
Proof.
  revert w. induction links as [|f rest IH]; intros w Hbad; [by exists w|].
  rewrite for_each_fetch_cons.
  destruct (fetch_item_step env n c f w) as (seg & _ & _ & ->).
  destruct (Hbad (length (http_log w)) (file_url env f)) as (r & -> & Hstatus);
    [done|].
  cbv zeta. destruct (status_code r =? 200) eqn:E; [by apply Z.eqb_eq in E|].
  destruct (IH (write_line ("Failed to download " +:+ seg +:+ " (HTTP "
                            +:+ Py.str (status_code r) +:+ ")")
                  (log_request (file_url env f) w))) as (w' & Hrun & Hs3).
  { intros k url Hk. apply Hbad. simpl in Hk. rewrite length_app in Hk. lia. }
  exists w'. by rewrite Hrun, Hs3.
Qed.

(** X5.  ["OK"] does not say that anything was downloaded: when the listing
    page is retrieved and every file request is answered with a status
    other than 200, the handler still returns ["OK"], the store is as it
    was, and the last line reports 0 uploads. *)
Theorem download_ok_without_uploads (file_limit : Z) (w : World) (r : Response) :
  remote env (length (http_log w)) (base_url env) = Reply r →
  (∀ (k : nat) url, (length (http_log w) < k)%nat →
     ∃ r', remote env k url = Reply r' ∧ status_code r' ≠ 200) →
  ∃ w', download_data env file_limit w = (Ret "OK", w')
    ∧ s3_objects w' = s3_objects w
    ∧ last (stdout w')
      = Some (newline +:+ "--- DONE! Successfully uploaded 0 files ---").
Proof.
  intros Hreply Hbad. rewrite download_data_run. cbv zeta.
  set (w0 := write_line ("URL: " +:+ base_url env)
               (write_line ("Bucket: " +:+ bucket env)
                  (write_line (newline +:+ "--- STARTING DOWNLOAD ---") w))).
  assert (http_log w0 = http_log w ∧ s3_objects w0 = s3_objects w)
    as [Hlog0 Hs30] by done.
  rewrite <- Hlog0 in Hreply. clearbody w0.
  destruct (collect_links_run env w0 r Hreply) as (w1 & Hrun & Hlog1 & Hs31).
  assert (∃ all_links, collect_links env w0 = (Ret all_links, w1))
    as [all_links ->].
  { destruct (extract_links _); destruct Hrun as [-> _]; eauto. }
  set (links := links_to_download all_links file_limit).
  destruct (fetch_loop_none_stored (Py.len links) 0 links
              (write_line ("Attempting to download " +:+ Py.str (Py.len links)
                           +:+ " files to S3..." +:+ newline) w1))
    as (w2 & Hrun2 & Hs32).
  { intros k url Hk. apply Hbad. simpl in Hk.
    rewrite Hlog1, length_app, Hlog0 in Hk. simpl in Hk. lia. }
  unfold fetch_batch. rewrite Hrun2.
  eexists. split; [reflexivity|]. simpl. rewrite last_snoc.
  split; [|done]. by rewrite Hs32, <- Hs30, <- Hs31.
Qed.

End FetcherExtraFacts.

Lemma download_footprint_witness :
  s3_objects (download_data env_listing 2 sample_store_world).2
    !! ("bdi-aircraft", "raw/day=20231101/a/b.json")
  = None
  ∧ local_files (download_data env_listing 2 sample_store_world).2 = ∅.
Proof.
  apply (download_footprint env_listing 2 sample_store_world
           "bdi-aircraft" "raw/day=20231101/a/b.json").
  right. intros (seg & Hk & Hseg).
  vm_compute in Hk. injection Hk as <-. vm_compute in Hseg. discriminate.
Defined.

Lemma download_ok_without_uploads_witness :
  ∃ w', download_data env_not_found 2 empty_world = (Ret "OK", w')
    ∧ s3_objects w' = ∅
    ∧ last (stdout w')
      = Some (newline +:+ "--- DONE! Successfully uploaded 0 files ---").
Proof.
  apply (download_ok_without_uploads env_not_found 2 empty_world
           (mkResponse 404 "" [])); [reflexivity|].
  intros k url _. exists (mkResponse 404 "" []). split; [reflexivity|discriminate].
Defined.

Section CountFacts.
Variable env : Env.
Hypothesis remote_stationary : ∀ n m url, remote env n url = remote env m url.



End CountFacts.


(** ** The generated candidates in the batch *)

Section GeneratedFacts.
Variable env : Env.






(** X8.  No name occurs twice in the output of the Fallback Generator, so
    the generated candidates have 17280 different storage keys. *)
Theorem generated_names_distinct : NoDup (generate_fallback []).
Proof.
  rewrite generate_fallback_nil. apply NoDup_alt. intros i j f Hi Hj.
  assert (∀ k : nat, fallback_names !! k = Some f →
            time_of_day f = Some (5 * Z.of_nat k)) as Htime.
  { intros k Hk.
    assert (Z.of_nat k < 17280) as Hlt.
    { apply lookup_lt_Some in Hk. pose proof len_fallback_names as Hlen.
      unfold Py.len in Hlen. lia. }
    rewrite fallback_names_lookup in Hk by done. cbv zeta in Hk.
    injection Hk as <-. rewrite time_of_candidate_name by div_lia.
    f_equal. div_lia. }
  pose proof (Htime i Hi) as Ht1. pose proof (Htime j Hj) as Ht2.
  rewrite Ht1 in Ht2. injection Ht2. lia.
Qed.

End GeneratedFacts.


(** ** The base URL *)

Section BaseUrlFacts.

Lemma rstrip_cons (chars : string) (a : ascii) (s : string) :
  Py.rstrip chars (String a s)
  = match Py.rstrip chars s with
    | "" => if Py.char_in a chars then "" else String a ""
    | r => String a r
    end.
Proof. reflexivity. Qed.

Lemma rstrip_app_slash (s : string) :
  Py.rstrip "/" (s +:+ "/") = Py.rstrip "/" s.
Proof.
  induction s as [|a s IH]; [done|].
  by rewrite append_cons, !rstrip_cons, IH.
Qed.

Lemma rstrip_app_slashes (s : string) (k : nat) :
  Py.rstrip "/" (s +:+ slashes k) = Py.rstrip "/" s.
Proof.
  revert s. induction k as [|k IH]; intros s; simpl slashes.
  - by rewrite append_nil_r.
  - change (String "/" (slashes k)) with ("/" +:+ slashes k).
    by rewrite <- append_assoc, IH, rstrip_app_slash.
Qed.

(** What [rstrip] cuts off is a run of slashes. *)
Lemma rstrip_decompose (s : string) :
  ∃ k, s = Py.rstrip "/" s +:+ slashes k.
Proof.
  induction s as [|a s [k IH]]; [by exists 0%nat|].
  rewrite rstrip_cons. destruct (Py.rstrip "/" s) as [|b r] eqn:E.
  - rewrite append_nil_l in IH.
    destruct (Py.char_in a "/") eqn:Ea.
    + exists (S k). simpl in Ea. rewrite orb_false_r in Ea.
      apply Ascii.eqb_eq in Ea as ->. by rewrite IH.
    + exists k. by rewrite append_cons, append_nil_l, <- IH.
  - exists k. by rewrite append_cons, <- IH.
Qed.

(** What [rstrip] leaves does not end in a slash. *)
Lemma rstrip_no_trailing_slash (s p : string) : Py.rstrip "/" s ≠ p +:+ "/".
Proof.
  revert p. induction s as [|a s IH]; intros p.
  - by destruct p.
  - rewrite rstrip_cons. destruct (Py.rstrip "/" s) as [|b r] eqn:E.
    + destruct (Py.char_in a "/") eqn:Ea; [by destruct p|].
      destruct p as [|c p]; [|by destruct p].
      rewrite append_nil_l. intros [= ->]. done.
    + destruct p as [|c p]; [done|].
      rewrite append_cons. intros [= -> Hr]. by apply (IH p).
Qed.

(** X9.  Trailing slashes of the configured source URL do not matter: with
    any number of them added the base URL is the same, namely the source
    URL without its trailing slashes, followed by [/2023/11/01/]. *)
Theorem base_url_ignores_trailing_slashes (env : Env) (k : nat) :
  base_url (with_source_url (source_url (settings env) +:+ slashes k) env)
  = base_url env
  ∧ ∃ stem j,
      base_url env = stem +:+ "/2023/11/01/"
      ∧ source_url (settings env) = stem +:+ slashes j
      ∧ ∀ p, stem ≠ p +:+ "/".
Proof.
  split.
  - unfold base_url. simpl. by rewrite rstrip_app_slashes.
  - destruct (rstrip_decompose (source_url (settings env))) as [j Hj].
    exists (Py.rstrip "/" (source_url (settings env))), j.
    split; [done|]. split; [done|]. apply rstrip_no_trailing_slash.
Qed.

End BaseUrlFacts.

(** ** From the download to the staging *)

Section StagingFacts.
Variable env : Env.



End StagingFacts.


(** ** Further properties of the prepare handler *)

Section PrepareExtraFacts.
Variable env : Env.

(** A loop without loop variables over two lists in a row. *)
Lemma for_each_unit_app {A} (body : unit → A → M unit) (l1 l2 : list A)
    (w : World) :
  for_each body tt (l1 ++ l2) w =
    match for_each body tt l1 w with
    | (Ret _, w') => for_each body tt l2 w'
    | (Raise e, w') => (Raise e, w')
    end.
Proof.
  revert w. induction l1 as [|x l1 IH]; intros w; [done|].
  simpl app. rewrite !for_each_cons.
  destruct (body tt x w) as [[[]|e] w']; [apply IH|done].
Qed.

(** The loop over the pages is the loop over their keys. *)
Lemma prepare_pages_flat (pages : list Page) (w : World) :
  prepare_pages env pages w = prepare_keys env (listed_keys pages) w.
Proof.
  revert w. induction pages as [|page pages IH]; intros w; [done|].
  change (listed_keys (page :: pages))
    with (default [] (Contents page) ++ listed_keys pages).
  unfold prepare_keys in *. rewrite for_each_unit_app.
  unfold prepare_pages in *. rewrite for_each_cons.
  destruct (Contents page) as [objs|]; simpl.
  - destruct (for_each _ tt objs w) as [[[]|e] w']; [apply IH|done].
  - apply IH.
Qed.

(** X11.  How the listing is cut into pages does not matter to the prepare
    handler: two listings with the same keys in the same order, pages
    without ["Contents"] included, give the same result and the same
    world. *)
Theorem prepare_paging_irrelevant (pages1 pages2 : list Page) (w : World) :
  listed_keys pages1 = listed_keys pages2 →
  prepare_data env pages1 w = prepare_data env pages2 w.
Proof.
  intros Hkeys. unfold prepare_data, mbind, M_bind.
  by rewrite !prepare_pages_flat, Hkeys.
Qed.








End PrepareExtraFacts.

Lemma prepare_paging_irrelevant_witness :
  prepare_data env_listing sample_pages sample_store_world
  = prepare_data env_listing
      [mkPage (Some ["raw/day=20231101/"; "raw/day=20231101/000000Z.json.gz";
                     "raw/day=20231101/000005Z.json.gz"])]
      sample_store_world.
Proof. apply (prepare_paging_irrelevant env_listing). reflexivity. Defined.




(** ** The download handler from end to end *)

Section EndToEndFacts.
Variable env : Env.


End EndToEndFacts.

